(** * PfeifferMaxigauge: the serial handshake, the pressure decode and the
      sensor mask of the Tango device server

    A shallow embedding of [src/PfeifferMaxigauge.py].  The device object
    is a record holding what the methods can observe or change: the reply
    lines the instrument still has to deliver, the byte strings written to
    the serial line, and the Tango log streams.  Methods are computations
    in a state-and-exception monad over that record.

    Python built-ins the methods call ([in] on [str], [str.split],
    [str.join], [str] of an [int], list item assignment, [float]) are
    modelled next to the code that uses them. *)

From Stdlib Require Import ZArith String Ascii List Lia Bool DecimalString.
From Stdlib Require Import Floats.SpecFloat.
From Stdlib Require DecimalPos DecimalZ.
From stdpp Require Import base list.

Open Scope list_scope.
Open Scope string_scope.
Open Scope Z_scope.

(** ** Exceptions and the method monad *)

(** The exception classes that can arise in the modelled methods.
    [VisaIOError] is what the VISA layer raises when a read times out. *)
Inductive exn : Type :=
  | IndexError
  | ValueError
  | VisaIOError.

Inductive result (A : Type) : Type :=
  | Ok (a : A)
  | Raise (e : exn).
Arguments Ok {A} a.
Arguments Raise {A} e.

(** One line written to a Tango log stream. *)
Inductive log_entry : Type :=
  | Debug (msg : string)
  | Error (msg : string).

(** The device object.  [inst_rx] lists the reply lines the instrument will
    deliver, in order, each already stripped of the read terminator (as
    [inst.read()] returns them); [inst_tx] lists the byte strings put on the
    serial line so far, oldest first; [streams] is the log. *)
Record Device : Type := mkDevice {
  inst_rx : list string;
  inst_tx : list string;
  streams : list log_entry
}.

Definition M (A : Type) : Type := Device -> result A * Device.

Definition ret {A} (a : A) : M A := fun self => (Ok a, self).

Definition raise {A} (e : exn) : M A := fun self => (Raise e, self).

Definition bind {A B} (m : M A) (k : A -> M B) : M B :=
  fun self =>
    match m self with
    | (Ok a, self') => k a self'
    | (Raise e, self') => (Raise e, self')
    end.

(** [try: body except Exception: handler]; every class of [exn] derives
    from [Exception], so the handler takes them all.  State changes made
    by the body before it raised are kept. *)
Definition try_except {A} (body : M A) (handler : exn -> M A) : M A :=
  fun self =>
    match body self with
    | (Ok a, self') => (Ok a, self')
    | (Raise e, self') => handler e self'
    end.

(** Lifting of a pure computation that may raise. *)
Definition lift {A} (r : result A) : M A := fun self => (r, self).

Declare Scope method_scope.
Delimit Scope method_scope with method.
Notation "x <- m ;; k" := (bind m (fun x => k))
  (at level 100, m at level 99, right associativity) : method_scope.
Notation "m ;; k" := (bind m (fun _ => k))
  (at level 100, right associativity) : method_scope.
Open Scope method_scope.

(** ** Module constants *)

Definition ACK : string := String (ascii_of_nat 6) "".
Definition NAK : string := String (ascii_of_nat 21) "".
Definition ENQ : string := String (ascii_of_nat 5) "".
Definition ETX : string := String (ascii_of_nat 3) "".

(** [init_device] sets [inst.write_termination = '\r']. *)
Definition write_termination : string := String (ascii_of_nat 13) "".

(** ** Python string built-ins *)

(** [sub in s] for two [str] values: [sub] occurs as a substring of [s]. *)
Fixpoint str_in (sub s : string) : bool :=
  String.prefix sub s ||
  match s with
  | EmptyString => false
  | String _ rest => str_in sub rest
  end.

(** [s.split(',')]: cut at every comma, empty fields kept. *)
Fixpoint split_comma (s : string) : list string :=
  match s with
  | EmptyString => [EmptyString]
  | String c rest =>
      if Ascii.eqb c ","%char then EmptyString :: split_comma rest
      else match split_comma rest with
           | field :: fields => String c field :: fields
           | [] => [String c EmptyString]
           end
  end.

(** [sep.join(l)]. *)
Definition join (sep : string) (l : list string) : string :=
  String.concat sep l.

(** [str(n)] for an [int]: decimal digits, a leading minus for negatives. *)
Definition str (n : Z) : string := NilZero.string_of_int (Z.to_int n).

(** [l[i] = v] on a Python list: a negative index counts from the end, and
    an index still outside the list raises [IndexError]. *)
Definition list_setitem {A} (l : list A) (i : Z) (v : A) : result (list A) :=
  let len := Z.of_nat (length l) in
  let j := if i <? 0 then i + len else i in
  if (j <? 0) || (len <=? j) then Raise IndexError
  else Ok (<[Z.to_nat j := v]> l).

(** [a, b = l]: unpacking into two names wants exactly two items. *)
Definition unpack2 {A} (l : list A) : result (A * A) :=
  match l with
  | [a; b] => Ok (a, b)
  | _ => Raise ValueError
  end.

(** ** hexformat *)

Definition hex_digit (n : N) : ascii :=
  match n with
  | 0%N => "0" | 1%N => "1" | 2%N => "2" | 3%N => "3"
  | 4%N => "4" | 5%N => "5" | 6%N => "6" | 7%N => "7"
  | 8%N => "8" | 9%N => "9" | 10%N => "A" | 11%N => "B"
  | 12%N => "C" | 13%N => "D" | 14%N => "E" | _ => "F"
  end%char.

(** [f"{ord(s):02X}"] for one character. *)
Definition hex02X (c : ascii) : string :=
  let n := N_of_ascii c in
  String (hex_digit (n / 16)) (String (hex_digit (n mod 16)) "").

Fixpoint chars (s : string) : list ascii :=
  match s with
  | EmptyString => []
  | String c rest => c :: chars rest
  end.

Definition hexformat (text : string) : string :=
  let hexstr := map hex02X (chars text) in
  join " " hexstr.

(** ** The serial instrument and the log streams *)

Definition debug_stream (msg : string) : M unit :=
  fun self => (Ok tt, mkDevice (inst_rx self) (inst_tx self)
                               (streams self ++ [Debug msg])%list).

Definition error_stream (msg : string) : M unit :=
  fun self => (Ok tt, mkDevice (inst_rx self) (inst_tx self)
                               (streams self ++ [Error msg])%list).

(** [inst.write_raw(b)]: the bytes go out as they are. *)
Definition inst_write_raw (b : string) : M unit :=
  fun self => (Ok tt, mkDevice (inst_rx self) (inst_tx self ++ [b])%list
                               (streams self)).

(** [inst.write(msg)]: the message followed by the write terminator. *)
Definition inst_write (msg : string) : M unit :=
  inst_write_raw (msg ++ write_termination).

(** [inst.read()]: the next reply line, or a timeout when the instrument
    stays silent. *)
Definition inst_read : M string :=
  fun self =>
    match inst_rx self with
    | line :: rest => (Ok line, mkDevice rest (inst_tx self) (streams self))
    | [] => (Raise VisaIOError, self)
    end.

(** [inst.query(msg)]: a write followed by a read. *)
Definition inst_query (msg : string) : M string :=
  inst_write msg ;; inst_read.

(** ** query *)

Definition query (argin : string) : M string :=
  debug_stream ("query: " ++ argin) ;;
  ans <- inst_query argin ;;
  let ans_hex := hexformat ans in
  debug_stream ("reply: " ++ ans ++ " (" ++ ans_hex ++ ")") ;;
  if str_in ACK ans then
    debug_stream "Received ACK, proceeding with ENQ" ;;
    inst_write_raw ENQ ;;
    reply <- inst_read ;;
    let ans_hex := hexformat reply in
    debug_stream ("reply: " ++ reply ++ " (" ++ ans_hex ++ ")") ;;
    ret reply
  else if str_in NAK ans then
    error_stream ("Query resulted in NAK: " ++ argin) ;;
    ret ""
  else
    error_stream ("Did not receive ACK on message, got " ++ ans_hex ++ " instead") ;;
    ret "".

(** ** float *)

(** Python [float] values: IEEE 754 binary64, as the specification type of
    the Standard Library's floats with 53 bits of precision. *)
Definition pyfloat : Type := spec_float.

Definition prec : Z := 53.
Definition emax : Z := 1024.

(** [math.nan]. *)
Definition nan : pyfloat := S754_nan.

Definition is_digit (c : ascii) : bool :=
  let n := N_of_ascii c in (48 <=? n)%N && (n <=? 57)%N.

Definition digit_val (c : ascii) : Z := Z.of_N (N_of_ascii c) - 48.

(** The characters [float] strips around a literal: tab, line feed,
    vertical tab, form feed, carriage return and space. *)
Definition is_space (c : ascii) : bool :=
  let n := N_of_ascii c in ((9 <=? n)%N && (n <=? 13)%N) || (n =? 32)%N.

Definition to_lower (c : ascii) : ascii :=
  let n := N_of_ascii c in
  if (65 <=? n)%N && (n <=? 90)%N then ascii_of_N (n + 32) else c.

Fixpoint lstrip (s : string) : string :=
  match s with
  | EmptyString => EmptyString
  | String c rest => if is_space c then lstrip rest else s
  end.

Fixpoint rstrip (s : string) : string :=
  match s with
  | EmptyString => EmptyString
  | String c rest =>
      match rstrip rest with
      | EmptyString => if is_space c then EmptyString else String c EmptyString
      | kept => String c kept
      end
  end.

(** Underscores in a numeric literal: allowed only between two digits.
    [prev] is the character before [s]. *)
Fixpoint strip_underscores (prev : ascii) (s : string) : option string :=
  match s with
  | EmptyString => if Ascii.eqb prev "_" then None else Some EmptyString
  | String c rest =>
      if Ascii.eqb c "000" then None
      else if Ascii.eqb c "_" then
        if is_digit prev then strip_underscores c rest else None
      else if Ascii.eqb prev "_" && negb (is_digit c) then None
      else option_map (String c) (strip_underscores c rest)
  end.

Definition take_sign (s : string) : bool * string :=
  match s with
  | String "-" rest => (true, rest)
  | String "+" rest => (false, rest)
  | _ => (false, s)
  end.

(** Reads a run of decimal digits: the number read so far, how many
    digits were read, and what follows them. *)
Fixpoint take_digits (acc count : Z) (s : string) : Z * Z * string :=
  match s with
  | EmptyString => (acc, count, EmptyString)
  | String c rest =>
      if is_digit c then take_digits (10 * acc + digit_val c) (count + 1) rest
      else (acc, count, s)
  end.

(** The binary64 value nearest to [(-1)^neg * m * 10^e10], ties to even;
    an infinity past the largest finite value. *)
Definition round_decimal (neg : bool) (m e10 : Z) : pyfloat :=
  match m with
  | Z.pos p =>
      if 0 <=? e10 then binary_round prec emax neg (p * Z.to_pos (10 ^ e10)) 0
      else SFdiv prec emax (S754_finite neg p 0)
                           (S754_finite false (Z.to_pos (10 ^ (- e10))) 0)
  | _ => S754_zero neg
  end.

(** A decimal literal at the head of [s]: sign, digits with an optional
    point (one digit at least), and an exponent when it is complete.
    Returns the value and the unread rest. *)
Definition strtod (s : string) : option (pyfloat * string) :=
  let (neg, s1) := take_sign s in
  let '(m1, n1, s2) := take_digits 0 0 s1 in
  let '(m2, n2, s3) :=
    match s2 with
    | String "." rest => take_digits m1 0 rest
    | _ => (m1, 0, s2)
    end in
  if n1 + n2 =? 0 then None
  else
    let '(e, s4) :=
      match s3 with
      | String c rest =>
          if Ascii.eqb (to_lower c) "e" then
            let (eneg, r1) := take_sign rest in
            let '(ev, en, r2) := take_digits 0 0 r1 in
            if en =? 0 then (0, s3) else (if eneg then - ev else ev, r2)
          else (0, s3)
      | EmptyString => (0, s3)
      end in
    Some (round_decimal neg m2 (e - n2), s4).

(** [s] starts with [pat] (given in lower case), letter case ignored:
    the rest of [s] after it. *)
Fixpoint case_insensitive_match (pat s : string) : option string :=
  match pat with
  | EmptyString => Some s
  | String p pat' =>
      match s with
      | String c rest =>
          if Ascii.eqb (to_lower c) p then case_insensitive_match pat' rest
          else None
      | EmptyString => None
      end
  end.

Definition parse_inf_or_nan (s : string) : option (pyfloat * string) :=
  let (neg, s1) := take_sign s in
  match case_insensitive_match "inf" s1 with
  | Some r =>
      match case_insensitive_match "inity" r with
      | Some r' => Some (S754_infinity neg, r')
      | None => Some (S754_infinity neg, r)
      end
  | None =>
      match case_insensitive_match "nan" s1 with
      | Some r => Some (S754_nan, r)
      | None => None
      end
  end.

Definition string_to_double (s : string) : option (pyfloat * string) :=
  match strtod s with
  | Some r => Some r
  | None => parse_inf_or_nan s
  end.

Definition float_from_string_inner (s : string) : result pyfloat :=
  match lstrip s with
  | EmptyString => Raise ValueError
  | s1 =>
      match string_to_double (rstrip s1) with
      | Some (x, EmptyString) => Ok x
      | _ => Raise ValueError
      end
  end.

(** [float(s)] for a [str] of ASCII text (the VISA layer decodes replies
    as ASCII).  A string that is not a literal raises [ValueError]. *)
Definition float (s : string) : result pyfloat :=
  if str_in "_" s then
    match strip_underscores "000" s with
    | Some digits => float_from_string_inner digits
    | None => Raise ValueError
    end
  else float_from_string_inner s.

(** ** read_sensor *)

Definition read_sensor (argin : Z) : M pyfloat :=
  ans <- query ("PR" ++ str argin) ;;
  try_except
    (fields <- lift (unpack2 (split_comma ans)) ;;
     let (status, pressure) := fields : string * string in
     pressure <- lift (float pressure) ;;
     ret pressure)
    (fun _ => ret nan).

(** ** enable_sensor and disable_sensor

    The Tango command table declares the argument of [enable_sensor] as
    [DevLong64] and that of [disable_sensor] as [DevULong]; the method
    bodies work on whatever [int] they are handed. *)

Definition enable_sensor (argin : Z) : M unit :=
  let mask := replicate 6 0 in
  mask <- lift (list_setitem mask (argin - 1) 2) ;;
  let mask_str := join "," (map str mask) in
  query ("SEN," ++ mask_str) ;;
  ret tt.

Definition disable_sensor (argin : Z) : M unit :=
  let mask := replicate 6 0 in
  mask <- lift (list_setitem mask (argin - 1) 1) ;;
  let mask_str := join "," (map str mask) in
  query ("SEN," ++ mask_str) ;;
  ret tt.

(** ** Vocabulary of the statements *)

(** The control bytes as characters. *)
Definition ack_byte : ascii := ascii_of_nat 6.
Definition nak_byte : ascii := ascii_of_nat 21.
Definition comma : ascii := ","%char.

(** The byte [c] occurs somewhere in the line [s]. *)
Definition has_byte (c : ascii) (s : string) : Prop := In c (chars s).

(** Number of commas in a line. *)
Fixpoint count_commas (s : string) : nat :=
  match s with
  | EmptyString => O
  | String c rest =>
      if Ascii.eqb c comma then S (count_commas rest) else count_commas rest
  end.

(** The mask with [value] in the slot at position [slot] and zero in the
    five others. *)
Definition one_hot (slot : nat) (value : Z) : list Z :=
  <[slot := value]> (replicate 6 0).

(** The command line that carries a mask. *)
Definition sen_command (mask : list Z) : string :=
  "SEN," ++ join "," (map str mask).

(** What the [try] block of [read_sensor] leaves in [pressure]. *)
Definition decode (ans : string) : pyfloat :=
  match split_comma ans with
  | [_; pressure] =>
      match float pressure with
      | Ok x => x
      | Raise _ => nan
      end
  | _ => nan
  end.

Definition is_finite (x : pyfloat) : bool :=
  match x with
  | S754_zero _ | S754_finite _ _ _ => true
  | _ => false
  end.

Definition is_infinity (x : pyfloat) : bool :=
  match x with
  | S754_infinity _ => true
  | _ => false
  end.

(** The log of a handshake that went through. *)
Definition ack_log (argin ans reply : string) : list log_entry :=
  [ Debug ("query: " ++ argin);
    Debug ("reply: " ++ ans ++ " (" ++ hexformat ans ++ ")");
    Debug "Received ACK, proceeding with ENQ";
    Debug ("reply: " ++ reply ++ " (" ++ hexformat reply ++ ")") ].

(** The diagnostic for a first reply without ACK. *)
Definition refusal (argin ans : string) : log_entry :=
  if str_in NAK ans then Error ("Query resulted in NAK: " ++ argin)
  else Error ("Did not receive ACK on message, got " ++ hexformat ans ++ " instead").

Definition nack_log (argin ans : string) : list log_entry :=
  [ Debug ("query: " ++ argin);
    Debug ("reply: " ++ ans ++ " (" ++ hexformat ans ++ ")");
    refusal argin ans ].

(** The three ways a query result fails to decode that the specification
    lists: empty, no comma, or a second field that is no float literal. *)
Definition undecodable (ans : string) : Prop :=
  ans = "" \/
  ~ has_byte comma ans \/
  (exists field, split_comma ans !! 1%nat = Some field /\
                 forall v, float field <> Ok v).

(** The specification's [setChannelEnabled]: the two commands under one
    name. *)
Definition setChannelEnabled (channel : Z) (enabled : bool) : M unit :=
  if enabled then enable_sensor channel else disable_sensor channel.

(** The mask entry that asks for the action. *)
Definition action (enabled : bool) : Z := if enabled then 2 else 1.

(** One decimal digit as a character. *)
Definition digit_char (d : Z) : ascii := ascii_of_N (48 + Z.to_N d).

(** Digits separated by single commas, nothing before, between or after. *)
Fixpoint comma_digits (mask : list Z) : string :=
  match mask with
  | [] => ""
  | [d] => String (digit_char d) ""
  | d :: rest => String (digit_char d) (String comma (comma_digits rest))
  end.

(** The slot that item assignment at index [channel - 1] reaches in a
    list of six. *)
Definition slot_of (channel : Z) : nat :=
  Z.to_nat (if channel - 1 <? 0 then channel + 5 else channel - 1).

(** An instrument that acknowledges and then reports the literal [inf]
    as pressure. *)
Definition overrange_device : Device := mkDevice [ACK; "0,inf"] [] [].

(** An instrument that acknowledges and then sends an empty line. *)
Definition obliging_device : Device := mkDevice [ACK; ""] [] [].

(** ** Further vocabulary *)

(** The value of an upper-case hexadecimal digit. *)
Definition hex_value (c : ascii) : N :=
  let n := N_of_ascii c in
  if (n <=? 57)%N then (n - 48)%N else (n - 55)%N.


(** The first thing a method puts on the serial line of a device whose
    line was [before]. *)
Definition first_sent (before : list string) (after : Device) : option string :=
  inst_tx after !! length before.

(** ** Proof automation *)

Ltac decide_comparisons :=
  repeat match goal with
         | |- context [?a <? ?b] => destruct (Z.ltb_spec a b)
         | |- context [?a <=? ?b] => destruct (Z.leb_spec a b)
         end.

(** ** Strings: membership and splitting *)

Lemma str_in_byte (c : ascii) (s : string) :
  str_in (String c "") s = true <-> has_byte c s.
Proof.
  unfold has_byte. induction s as [|a s IH]; simpl.
  - split; [discriminate | tauto].
  - destruct (ascii_dec c a) as [->|Hne].
    + destruct s; simpl; tauto.
    + simpl. rewrite IH. split; [tauto|].
      intros [Heq|Hin]; [congruence | exact Hin].
Qed.

Lemma str_in_byte_false (c : ascii) (s : string) :
  ~ has_byte c s -> str_in (String c "") s = false.
Proof.
  intros Hno. destruct (str_in (String c "") s) eqn:E; [|reflexivity].
  apply str_in_byte in E. contradiction.
Qed.

(** Which diagnostic a first reply without ACK draws. *)
Lemma refusal_cases (argin ans : string) :
  (has_byte nak_byte ans /\
   refusal argin ans = Error ("Query resulted in NAK: " ++ argin)) \/
  (~ has_byte nak_byte ans /\
   refusal argin ans =
   Error ("Did not receive ACK on message, got " ++ hexformat ans ++ " instead")).
Proof.
  unfold refusal. destruct (str_in NAK ans) eqn:Hnak.
  - left. split; [now apply str_in_byte | reflexivity].
  - right. split; [|reflexivity]. intros Hin.
    apply str_in_byte in Hin. unfold NAK in Hnak. unfold nak_byte in Hin.
    congruence.
Qed.

Lemma split_comma_nonempty (s : string) : split_comma s <> [].
Proof.
  induction s as [|c s IH]; simpl; [discriminate|].
  destruct (Ascii.eqb c ","); [discriminate|].
  destruct (split_comma s); discriminate.
Qed.

(** One field more than there are commas. *)
Lemma length_split_comma (s : string) :
  length (split_comma s) = S (count_commas s).
Proof.
  induction s as [|c s IH]; simpl; [reflexivity|].
  unfold comma. destruct (Ascii.eqb c ","); simpl.
  - now rewrite IH.
  - destruct (split_comma s) as [|f fs] eqn:E; simpl in *; [discriminate|].
    exact IH.
Qed.

Lemma count_commas_none (s : string) :
  ~ has_byte comma s -> count_commas s = O.
Proof.
  unfold has_byte. induction s as [|c s IH]; simpl; [reflexivity|].
  intros Hno. destruct (Ascii.eqb_spec c comma) as [->|Hne].
  - exfalso. apply Hno. now left.
  - apply IH. intros Hin. apply Hno. now right.
Qed.

(** A line without comma is its own single field. *)
Lemma split_comma_whole (s : string) :
  ~ has_byte comma s -> split_comma s = [s].
Proof.
  unfold has_byte. induction s as [|c s IH]; simpl; [reflexivity|].
  intros Hno. destruct (Ascii.eqb_spec c ",") as [->|Hne].
  - exfalso. apply Hno. now left.
  - rewrite IH; [reflexivity|]. intros Hin. apply Hno. now right.
Qed.

(** The first comma ends the first field. *)
Lemma split_comma_head (a rest : string) :
  ~ has_byte comma a ->
  split_comma (a ++ String comma rest) = a :: split_comma rest.
Proof.
  unfold has_byte. induction a as [|c a IH]; simpl; [reflexivity|].
  intros Hno. destruct (Ascii.eqb_spec c ",") as [->|Hne].
  - exfalso. apply Hno. now left.
  - rewrite IH; [reflexivity|]. intros Hin. apply Hno. now right.
Qed.

Lemma split_comma_pair (status value : string) :
  ~ has_byte comma status -> ~ has_byte comma value ->
  split_comma (status ++ "," ++ value) = [status; value].
Proof.
  intros Hs Hv. change ("," ++ value)%string with (String comma value).
  rewrite split_comma_head by assumption.
  now rewrite split_comma_whole.
Qed.

(** ** query: the two branches of the handshake *)

Lemma query_on_ack (argin ans reply : string) (rest tx : list string)
    (lg : list log_entry) :
  str_in ACK ans = true ->
  query argin (mkDevice (ans :: reply :: rest) tx lg) =
  (Ok reply,
   mkDevice rest (tx ++ [argin ++ write_termination; ENQ])
            (lg ++ ack_log argin ans reply)).
Proof.
  intros Hack. unfold query, bind, inst_query, inst_write, inst_write_raw,
    inst_read, debug_stream, ret. simpl. rewrite Hack. simpl.
  repeat rewrite <- app_assoc. reflexivity.
Qed.

Lemma query_without_ack (argin ans : string) (rest tx : list string)
    (lg : list log_entry) :
  str_in ACK ans = false ->
  query argin (mkDevice (ans :: rest) tx lg) =
  (Ok "",
   mkDevice rest (tx ++ [argin ++ write_termination])
            (lg ++ nack_log argin ans)).
Proof.
  intros Hack. unfold query, bind, inst_query, inst_write, inst_write_raw,
    inst_read, debug_stream, error_stream, ret, nack_log, refusal.
  simpl. rewrite Hack. destruct (str_in NAK ans); simpl;
    repeat rewrite <- app_assoc; reflexivity.
Qed.

(** A silent instrument: the command goes out and the read times out. *)
Lemma query_timeout (argin : string) (tx : list string) (lg : list log_entry) :
  query argin (mkDevice [] tx lg) =
  (Raise VisaIOError,
   mkDevice [] (tx ++ [argin ++ write_termination])
            (lg ++ [Debug ("query: " ++ argin)])).
Proof. reflexivity. Qed.

(** What a call of [query] puts on the line: the command with its
    terminator, and at most one ENQ after it. *)
Lemma query_tx (argin : string) (self : Device) :
  exists tail, (tail = [] \/ tail = [ENQ]) /\
    inst_tx (snd (query argin self)) =
    (inst_tx self ++ (argin ++ write_termination)%string :: tail)%list.
Proof.
  destruct self as [rx tx lg]. destruct rx as [|ans rx].
  - exists []. split; [now left | reflexivity].
  - destruct (str_in ACK ans) eqn:Hack.
    + exists [ENQ]. split; [now right|]. destruct rx as [|reply rx].
      * unfold query, bind, inst_query, inst_write, inst_write_raw,
          inst_read, debug_stream, ret. simpl. rewrite Hack. simpl.
        now rewrite <- app_assoc.
      * rewrite query_on_ack by assumption. reflexivity.
    + exists []. split; [now left|].
      rewrite query_without_ack by assumption. reflexivity.
Qed.

(** [query] raises nothing but the transport's timeout. *)
Lemma query_raises (argin : string) (self : Device) (e : exn) :
  fst (query argin self) = Raise e -> e = VisaIOError.
Proof.
  destruct self as [rx tx lg]. destruct rx as [|ans rx].
  - rewrite query_timeout. simpl. congruence.
  - destruct (str_in ACK ans) eqn:Hack.
    + destruct rx as [|reply rx].
      * unfold query, bind, inst_query, inst_write, inst_write_raw,
          inst_read, debug_stream, ret. simpl. rewrite Hack. simpl. congruence.
      * rewrite query_on_ack by assumption. discriminate.
    + rewrite query_without_ack by assumption. discriminate.
Qed.

(** ** Claims on query *)

(** C1. When the first reply line holds the ACK byte 0x06 anywhere,
    whatever else it holds, [query] writes the command line, then one raw
    ENQ byte, reads one more line and returns that second line. *)
Theorem query_ack_returns_payload
    (argin ans reply : string) (rest : list string) (self : Device) :
  inst_rx self = ans :: reply :: rest ->
  has_byte ack_byte ans ->
  query argin self =
  (Ok reply,
   mkDevice rest
            (inst_tx self ++ [argin ++ write_termination; ENQ])
            (streams self ++ ack_log argin ans reply)).
Proof.
  intros Hrx Hack. destruct self as [rx tx lg]. simpl in *. subst rx.
  apply query_on_ack. now apply str_in_byte.
Qed.

Lemma query_ack_returns_payload_witness :
  has_byte ack_byte (NAK ++ ACK ++ "PR1") /\
  query "PR1" (mkDevice [NAK ++ ACK ++ "PR1"; "0,1.234e-05"; "later"] [] []) =
  (Ok "0,1.234e-05",
   mkDevice ["later"] ["PR1" ++ write_termination; ENQ]
            (ack_log "PR1" (NAK ++ ACK ++ "PR1") "0,1.234e-05")).
Proof.
  assert (H : has_byte ack_byte (NAK ++ ACK ++ "PR1")).
  { unfold has_byte. simpl. right. now left. }
  split; [exact H|].
  exact (query_ack_returns_payload "PR1" (NAK ++ ACK ++ "PR1") "0,1.234e-05"
           ["later"]
           (mkDevice [NAK ++ ACK ++ "PR1"; "0,1.234e-05"; "later"] [] [])
           eq_refl H).
Defined.

(** C2. When the first reply line holds no ACK byte, with a NAK byte or
    with neither control byte, [query] returns the empty string; only the
    command line was written (no ENQ), only one line was read, and the two
    cases differ in the diagnostic alone. *)
Theorem query_no_ack_returns_empty
    (argin ans : string) (rest : list string) (self : Device) :
  inst_rx self = ans :: rest ->
  ~ has_byte ack_byte ans ->
  query argin self =
  (Ok "",
   mkDevice rest
            (inst_tx self ++ [argin ++ write_termination])
            (streams self ++
             [ Debug ("query: " ++ argin);
               Debug ("reply: " ++ ans ++ " (" ++ hexformat ans ++ ")");
               Error (if str_in NAK ans
                      then "Query resulted in NAK: " ++ argin
                      else "Did not receive ACK on message, got "
                             ++ hexformat ans ++ " instead") ])).
Proof.
  intros Hrx Hack. destruct self as [rx tx lg]. simpl in *. subst rx.
  rewrite query_without_ack by now apply str_in_byte_false.
  unfold nack_log, refusal. now destruct (str_in NAK ans).
Qed.

Lemma query_no_ack_returns_empty_witness :
  ~ has_byte ack_byte "???" /\
  query "PR3" (mkDevice ["???"; "unread"] [] []) =
  (Ok "",
   mkDevice ["unread"] ["PR3" ++ write_termination]
     [ Debug "query: PR3"; Debug "reply: ??? (3F 3F 3F)";
       Error "Did not receive ACK on message, got 3F 3F 3F instead" ]).
Proof.
  assert (H : ~ has_byte ack_byte "???").
  { unfold has_byte. simpl. intros [E|[E|[E|[]]]]; discriminate E. }
  split; [exact H|].
  exact (query_no_ack_returns_empty "PR3" "???" ["unread"]
           (mkDevice ["???"; "unread"] [] []) eq_refl H).
Defined.

(** ** read_sensor *)

(** [read_sensor] passes on what [query] raised, and otherwise returns the
    decoded reading; the [try] block touches neither line nor log. *)
Lemma read_sensor_unfold (argin : Z) (self : Device) :
  read_sensor argin self =
  match query ("PR" ++ str argin) self with
  | (Ok ans, self') => (Ok (decode ans), self')
  | (Raise e, self') => (Raise e, self')
  end.
Proof.
  unfold read_sensor, bind at 1.
  destruct (query ("PR" ++ str argin) self) as [[ans|e] self']; [|reflexivity].
  unfold try_except, bind, lift, ret, decode, unpack2.
  destruct (split_comma ans) as [|a [|b [|c l]]]; try reflexivity.
  destruct (float b); reflexivity.
Qed.

Lemma decode_pair (status value : string) :
  ~ has_byte comma status -> ~ has_byte comma value ->
  decode (status ++ "," ++ value) =
  match float value with Ok x => x | Raise _ => nan end.
Proof.
  intros Hs Hv. unfold decode. now rewrite split_comma_pair.
Qed.

Lemma decode_not_two_fields (ans : string) :
  length (split_comma ans) <> 2%nat -> decode ans = nan.
Proof.
  unfold decode. destruct (split_comma ans) as [|a [|b [|c l]]];
    simpl; intros H; try reflexivity. now exfalso.
Qed.

(** C3. When the query result is [status,value] with that one comma and
    [value] a valid floating-point literal, [read_sensor] returns the
    number [float] reads in [value]. *)
Theorem read_sensor_two_fields
    (argin : Z) (status value : string) (v : pyfloat) (self self' : Device) :
  query ("PR" ++ str argin) self = (Ok (status ++ "," ++ value), self') ->
  ~ has_byte comma status ->
  ~ has_byte comma value ->
  float value = Ok v ->
  read_sensor argin self = (Ok v, self').
Proof.
  intros Hq Hs Hv Hf. rewrite read_sensor_unfold, Hq.
  rewrite decode_pair by assumption. now rewrite Hf.
Qed.

Lemma read_sensor_two_fields_witness :
  read_sensor 1 (mkDevice [ACK ++ "PR1"; "0,1.234e-05"] [] []) =
  (Ok (S754_finite false 7284250299826428 (-69)),
   mkDevice [] ["PR1" ++ write_termination; ENQ]
            (ack_log "PR1" (ACK ++ "PR1") "0,1.234e-05")).
Proof.
  apply (read_sensor_two_fields 1 "0" "1.234e-05").
  - reflexivity.
  - unfold has_byte. simpl. intros [E|[]]. discriminate E.
  - unfold has_byte. simpl. intros H.
    repeat (destruct H as [E|H]; [discriminate E|]). exact H.
  - vm_compute. reflexivity.
Defined.

(** C4. When the query result is empty, has no comma, or has a second
    field that is not a valid floating-point literal, [read_sensor]
    returns NaN and raises nothing. *)
Theorem read_sensor_undecodable
    (argin : Z) (ans : string) (self self' : Device) :
  query ("PR" ++ str argin) self = (Ok ans, self') ->
  undecodable ans ->
  read_sensor argin self = (Ok nan, self').
Proof.
  intros Hq Hbad. rewrite read_sensor_unfold, Hq. f_equal. f_equal.
  destruct Hbad as [-> | [Hno | (field & Hfield & Hnot)]].
  - reflexivity.
  - apply decode_not_two_fields. rewrite length_split_comma.
    now rewrite count_commas_none.
  - unfold decode. destruct (split_comma ans) as [|a [|b [|c l]]];
      try reflexivity.
    simpl in Hfield. injection Hfield as ->.
    destruct (float field) as [x|e] eqn:Hf; [|reflexivity].
    exfalso. exact (Hnot x eq_refl).
Qed.

Lemma read_sensor_undecodable_witness :
  undecodable "0,1.2.3" /\
  read_sensor 3 (mkDevice [ACK; "0,1.2.3"] [] []) =
  (Ok nan,
   mkDevice [] ["PR3" ++ write_termination; ENQ]
            (ack_log "PR3" ACK "0,1.2.3")).
Proof.
  assert (H : undecodable "0,1.2.3").
  { right. right. exists "1.2.3". split; [reflexivity|].
    intros v. vm_compute. discriminate. }
  split; [exact H|].
  exact (read_sensor_undecodable 3 "0,1.2.3"
           (mkDevice [ACK; "0,1.2.3"] [] []) _ eq_refl H).
Defined.

(** C10. When the query result has two commas or more, [read_sensor]
    returns NaN, whatever the fields are. *)
Theorem read_sensor_many_fields
    (argin : Z) (ans : string) (self self' : Device) :
  query ("PR" ++ str argin) self = (Ok ans, self') ->
  (2 <= count_commas ans)%nat ->
  read_sensor argin self = (Ok nan, self').
Proof.
  intros Hq Hmany. rewrite read_sensor_unfold, Hq. f_equal. f_equal.
  apply decode_not_two_fields. rewrite length_split_comma. lia.
Qed.

Lemma read_sensor_many_fields_witness :
  (float "1.5" = Ok (S754_finite false 6755399441055744 (-52)) /\
   float "2.5" = Ok (S754_finite false 5629499534213120 (-51))) /\
  read_sensor 2 (mkDevice [ACK; "1.5,2.5,3.5"] [] []) =
  (Ok nan,
   mkDevice [] ["PR2" ++ write_termination; ENQ]
            (ack_log "PR2" ACK "1.5,2.5,3.5")).
Proof.
  split; [split; vm_compute; reflexivity|].
  apply (read_sensor_many_fields 2 "1.5,2.5,3.5").
  - reflexivity.
  - simpl. lia.
Defined.

(** C7, as stated, fails: the reply [0,inf] makes [read_sensor] return
    plus infinity, which is neither finite nor NaN. *)
Lemma read_sensor_returns_infinity :
  read_sensor 1 overrange_device =
    (Ok (S754_infinity false),
     mkDevice [] ["PR1" ++ write_termination; ENQ]
              (ack_log "PR1" ACK "0,inf")) /\
  is_finite (S754_infinity false) = false /\
  S754_infinity false <> nan.
Proof.
  split; [vm_compute; reflexivity|]. split; [reflexivity | discriminate].
Qed.

(** A literal past the largest binary64 value does the same. *)
Lemma read_sensor_overflow_infinity :
  fst (read_sensor 1 (mkDevice [ACK; "0,1e999"] [] [])) =
  Ok (S754_infinity false).
Proof. vm_compute. reflexivity. Qed.

(** C7, amended. The Reading returned by [read_sensor] is a finite
    number, NaN, or an infinity; it is an infinity only when the query
    result has exactly two comma-separated fields and [float] reads that
    infinity in the second. *)
Theorem read_sensor_reading_kinds
    (argin : Z) (v : pyfloat) (self self' : Device) :
  read_sensor argin self = (Ok v, self') ->
  is_finite v = true \/
  v = nan \/
  (is_infinity v = true /\
   exists ans status value,
     query ("PR" ++ str argin) self = (Ok ans, self') /\
     split_comma ans = [status; value] /\
     float value = Ok v).
Proof.
  rewrite read_sensor_unfold.
  destruct (query ("PR" ++ str argin) self) as [[ans|e] s1] eqn:Hq;
    [|discriminate].
  intros H. injection H as Hv Hs. subst s1.
  unfold decode in Hv.
  destruct (split_comma ans) as [|a [|b [|c l]]] eqn:Hsplit;
    try (right; left; now subst v).
  destruct (float b) as [x|e] eqn:Hf; [|right; left; now subst v].
  subst x. destruct v as [sg|sg| |sg m e].
  - now left.
  - right. right. split; [reflexivity|]. now exists ans, a, b.
  - right. now left.
  - now left.
Qed.

Lemma read_sensor_reading_kinds_witness :
  is_finite (S754_infinity true) = true \/
  S754_infinity true = nan \/
  (is_infinity (S754_infinity true) = true /\
   exists ans status value,
     query ("PR" ++ str 6) (mkDevice [ACK; "0,-Infinity"] [] []) =
       (Ok ans, mkDevice [] ["PR6" ++ write_termination; ENQ]
                         (ack_log "PR6" ACK "0,-Infinity")) /\
     split_comma ans = [status; value] /\
     float value = Ok (S754_infinity true)).
Proof.
  apply (read_sensor_reading_kinds 6 (S754_infinity true)
           (mkDevice [ACK; "0,-Infinity"] [] [])).
  vm_compute. reflexivity.
Defined.

(** ** The sensor mask *)

Lemma one_hot_lookup (slot : nat) (value : Z) (i : nat) :
  (slot < 6)%nat -> (i < 6)%nat ->
  one_hot slot value !! i = Some (if decide (i = slot) then value else 0).
Proof.
  intros Hslot Hi. unfold one_hot.
  do 6 (destruct slot as [|slot]; [
    do 6 (destruct i as [|i]; [reflexivity|]); lia |]).
  lia.
Qed.

Lemma mask_setitem (channel value : Z) :
  -5 <= channel <= 6 ->
  list_setitem (replicate 6 0) (channel - 1) value =
  Ok (one_hot (slot_of channel) value).
Proof.
  intros Hrange. unfold list_setitem, slot_of, one_hot.
  cbv zeta. simpl length. decide_comparisons; simpl; try lia.
  - do 3 f_equal. lia.
  - reflexivity.
Qed.

Lemma mask_setitem_out_of_range (channel value : Z) :
  channel < -5 \/ 6 < channel ->
  list_setitem (replicate 6 0) (channel - 1) value = Raise IndexError.
Proof.
  intros Hrange. unfold list_setitem.
  cbv zeta. simpl length. decide_comparisons; simpl; try lia; reflexivity.
Qed.

(** Within reach of the mask, both commands hand their command line to
    [query] and return nothing. *)
Lemma set_channel_issues_query (channel : Z) (enabled : bool) (self : Device) :
  -5 <= channel <= 6 ->
  setChannelEnabled channel enabled self =
  (query (sen_command (one_hot (slot_of channel) (action enabled))) ;; ret tt)
    self.
Proof.
  intros Hrange. unfold setChannelEnabled, action.
  destruct enabled; unfold enable_sensor, disable_sensor;
    unfold bind at 1, lift; rewrite mask_setitem by assumption; reflexivity.
Qed.

Lemma set_channel_out_of_range (channel : Z) (enabled : bool) (self : Device) :
  channel < -5 \/ 6 < channel ->
  setChannelEnabled channel enabled self = (Raise IndexError, self).
Proof.
  intros Hrange. unfold setChannelEnabled.
  destruct enabled; unfold enable_sensor, disable_sensor;
    unfold bind at 1, lift; rewrite mask_setitem_out_of_range by assumption;
    reflexivity.
Qed.

(** The mask of a reachable slot with entry 1 or 2 prints as six digits
    and five commas. *)
Lemma one_hot_serialized (slot : nat) (enabled : bool) :
  (slot < 6)%nat ->
  join "," (map str (one_hot slot (action enabled))) =
  comma_digits (one_hot slot (action enabled)).
Proof.
  intros Hslot.
  do 6 (destruct slot as [|slot]; [destruct enabled; reflexivity|]).
  lia.
Qed.

Lemma slot_of_positive (channel : Z) :
  1 <= channel <= 6 -> slot_of channel = Z.to_nat (channel - 1).
Proof.
  intros Hrange. unfold slot_of.
  destruct (channel - 1 <? 0) eqn:Hneg; [|reflexivity].
  apply Z.ltb_lt in Hneg. lia.
Qed.

(** C5. For a channel in 1..6 the mask has six entries, all zero but the
    one at index [channel - 1], which is 2 to enable and 1 to disable; it
    is written as digits joined by commas, and the command handed to
    [query] is [SEN,] followed by it.  Enabling channel 4 hands
    [SEN,0,0,0,2,0,0] to [query]. *)
Theorem set_channel_mask_command
    (channel : Z) (enabled : bool) (self : Device) :
  1 <= channel <= 6 ->
  let mask := one_hot (Z.to_nat (channel - 1)) (action enabled) in
  length mask = 6%nat /\
  (forall i : nat, (i < 6)%nat ->
     mask !! i =
     Some (if decide (i = Z.to_nat (channel - 1)) then action enabled else 0)) /\
  join "," (map str mask) = comma_digits mask /\
  setChannelEnabled channel enabled self =
    (query ("SEN," ++ join "," (map str mask)) ;; ret tt) self /\
  enable_sensor 4 self = (query "SEN,0,0,0,2,0,0" ;; ret tt) self.
Proof.
  intros Hrange mask. subst mask.
  assert (Hslot : (Z.to_nat (channel - 1) < 6)%nat) by lia.
  split; [|split; [|split; [|split]]].
  - unfold one_hot. now rewrite length_insert.
  - intros i Hi. now apply one_hot_lookup.
  - now apply one_hot_serialized.
  - rewrite set_channel_issues_query by lia.
    now rewrite slot_of_positive.
  - reflexivity.
Qed.

Lemma set_channel_mask_command_witness :
  one_hot 3 2 = [0; 0; 0; 2; 0; 0] /\
  setChannelEnabled 4 true (mkDevice [ACK; ""] [] []) =
    (Ok tt,
     mkDevice [] ["SEN,0,0,0,2,0,0" ++ write_termination; ENQ]
              (ack_log "SEN,0,0,0,2,0,0" ACK "")).
Proof.
  split; [reflexivity|].
  destruct (set_channel_mask_command 4 true (mkDevice [ACK; ""] [] []))
    as (_ & _ & _ & Hcmd & _); [lia|].
  rewrite Hcmd. reflexivity.
Defined.

(** C6, as stated, fails: channel 0 lies outside 1..6, yet
    [enable_sensor] and [disable_sensor] raise nothing and send a command
    that addresses the sixth slot. *)
Lemma channel_zero_sends_command :
  (0 < 1 \/ 6 < 0) /\
  enable_sensor 0 obliging_device =
    (Ok tt,
     mkDevice [] ["SEN,0,0,0,0,0,2" ++ write_termination; ENQ]
              (ack_log "SEN,0,0,0,0,0,2" ACK "")) /\
  disable_sensor 0 obliging_device =
    (Ok tt,
     mkDevice [] ["SEN,0,0,0,0,0,1" ++ write_termination; ENQ]
              (ack_log "SEN,0,0,0,0,0,1" ACK "")).
Proof.
  split; [left; lia|]. split; vm_compute; reflexivity.
Qed.

(** C6, amended. For a channel below -5 or above 6, [enable_sensor] and
    [disable_sensor] raise [IndexError] in building the mask: nothing was
    written, read or logged. *)
Theorem channel_out_of_reach_raises (channel : Z) (self : Device) :
  channel < -5 \/ 6 < channel ->
  enable_sensor channel self = (Raise IndexError, self) /\
  disable_sensor channel self = (Raise IndexError, self).
Proof.
  intros Hrange. split.
  - exact (set_channel_out_of_range channel true self Hrange).
  - exact (set_channel_out_of_range channel false self Hrange).
Qed.

Lemma channel_out_of_reach_raises_witness :
  enable_sensor 7 obliging_device = (Raise IndexError, obliging_device) /\
  disable_sensor 7 obliging_device = (Raise IndexError, obliging_device).
Proof.
  apply (channel_out_of_reach_raises 7 obliging_device). right. lia.
Defined.

Lemma snd_then_ret {A} (m : M A) (self : Device) :
  snd ((m ;; ret tt) self) = snd (m self).
Proof.
  unfold bind, ret. now destruct (m self) as [[a|e] s1].
Qed.

Lemma fst_then_ret_raise {A} (m : M A) (self : Device) (e : exn) :
  fst ((m ;; ret tt) self) = Raise e -> fst (m self) = Raise e.
Proof.
  unfold bind, ret. destruct (m self) as [[a|e'] s1]; simpl; congruence.
Qed.

(** What either command puts on the line when the mask could be built. *)
Lemma set_channel_tx (channel : Z) (enabled : bool) (self : Device) :
  -5 <= channel <= 6 ->
  exists tail, (tail = [] \/ tail = [ENQ]) /\
    inst_tx (snd (setChannelEnabled channel enabled self)) =
    (inst_tx self ++
     (sen_command (one_hot (slot_of channel) (action enabled))
        ++ write_termination)%string :: tail)%list.
Proof.
  intros Hrange. rewrite set_channel_issues_query by assumption.
  rewrite snd_then_ret. apply query_tx.
Qed.

(** C8. For a channel in 1..6, two calls of [enable_sensor] in a row put
    the same SEN command line on the serial line, each followed by at
    most one ENQ; the line depends on the channel alone. *)
Theorem enable_sensor_twice_same_command (channel : Z) (self : Device) :
  1 <= channel <= 6 ->
  let command :=
    (sen_command (one_hot (Z.to_nat (channel - 1)) 2)
       ++ write_termination)%string in
  let after_first := snd (enable_sensor channel self) in
  let after_second := snd (enable_sensor channel after_first) in
  exists tail1 tail2,
    (tail1 = [] \/ tail1 = [ENQ]) /\
    (tail2 = [] \/ tail2 = [ENQ]) /\
    inst_tx after_first = (inst_tx self ++ command :: tail1)%list /\
    inst_tx after_second = (inst_tx after_first ++ command :: tail2)%list.
Proof.
  intros Hrange command after_first after_second.
  assert (Hreach : -5 <= channel <= 6) by lia.
  destruct (set_channel_tx channel true self Hreach) as (tail1 & Ht1 & H1).
  destruct (set_channel_tx channel true after_first Hreach)
    as (tail2 & Ht2 & H2).
  rewrite slot_of_positive in H1, H2 by assumption.
  exists tail1, tail2. auto.
Qed.

Lemma enable_sensor_twice_same_command_witness :
  let start := mkDevice [ACK; ""; NAK] [] [] in
  let command := ("SEN,0,2,0,0,0,0" ++ write_termination)%string in
  let after_first := snd (enable_sensor 2 start) in
  let after_second := snd (enable_sensor 2 after_first) in
  exists tail1 tail2,
    (tail1 = [] \/ tail1 = [ENQ]) /\
    (tail2 = [] \/ tail2 = [ENQ]) /\
    inst_tx after_first = (inst_tx start ++ command :: tail1)%list /\
    inst_tx after_second = (inst_tx after_first ++ command :: tail2)%list.
Proof.
  apply (enable_sensor_twice_same_command 2 (mkDevice [ACK; ""; NAK] [] [])).
  lia.
Defined.

(** C9. For a channel in -5..0 neither command fails on the index: the
    negative index [channel - 1] counts from the end of the mask, slot
    [channel + 5] receives the entry, and the command goes to [query];
    only the transport's timeout can still be raised.  [enable_sensor 0]
    hands [SEN,0,0,0,0,0,2] to [query]. *)
Theorem negative_channel_wraps
    (channel : Z) (enabled : bool) (self : Device) :
  -5 <= channel <= 0 ->
  setChannelEnabled channel enabled self =
    (query (sen_command (one_hot (Z.to_nat (channel + 5)) (action enabled)))
       ;; ret tt) self /\
  (forall e, fst (setChannelEnabled channel enabled self) = Raise e ->
             e = VisaIOError) /\
  enable_sensor 0 self = (query "SEN,0,0,0,0,0,2" ;; ret tt) self.
Proof.
  intros Hrange.
  assert (Hcall : setChannelEnabled channel enabled self =
    (query (sen_command (one_hot (Z.to_nat (channel + 5)) (action enabled)))
       ;; ret tt) self).
  { rewrite set_channel_issues_query by lia. unfold slot_of.
    destruct (Z.ltb_spec (channel - 1) 0); [reflexivity | lia]. }
  split; [exact Hcall|]. split; [|reflexivity].
  intros e He. rewrite Hcall in He.
  apply fst_then_ret_raise in He. now apply query_raises in He.
Qed.

Lemma negative_channel_wraps_witness :
  disable_sensor (-5) obliging_device =
    (Ok tt,
     mkDevice [] ["SEN,1,0,0,0,0,0" ++ write_termination; ENQ]
              (ack_log "SEN,1,0,0,0,0,0" ACK "")).
Proof.
  destruct (negative_channel_wraps (-5) false obliging_device)
    as (Hcall & _ & _); [lia|].
  unfold setChannelEnabled in Hcall. rewrite Hcall. reflexivity.
Defined.

(** ** hexformat: the shape of the dump *)

Lemma hexformat_cons (c : ascii) (s : string) :
  hexformat (String c s) =
  match s with
  | EmptyString => hex02X c
  | _ => hex02X c ++ " " ++ hexformat s
  end.
Proof. destruct s; reflexivity. Qed.

Lemma hex_value_digit (n : N) : (n < 16)%N -> hex_value (hex_digit n) = n.
Proof.
  intros Hn. destruct n as [|p]; [reflexivity|].
  do 4 (destruct p as [p|p|]; try reflexivity); lia.
Qed.

Lemma hex02X_inj (c d : ascii) : hex02X c = hex02X d -> c = d.
Proof.
  unfold hex02X. intros H. injection H as Hhi Hlo.
  pose proof (N_ascii_bounded c) as Hc. pose proof (N_ascii_bounded d) as Hd.
  assert (Hq : (N_of_ascii c / 16 = N_of_ascii d / 16)%N).
  { rewrite <- (hex_value_digit (N_of_ascii c / 16)),
            <- (hex_value_digit (N_of_ascii d / 16)).
    - now rewrite Hhi.
    - apply N.Div0.div_lt_upper_bound. lia.
    - apply N.Div0.div_lt_upper_bound. lia. }
  assert (Hr : (N_of_ascii c mod 16 = N_of_ascii d mod 16)%N).
  { rewrite <- (hex_value_digit (N_of_ascii c mod 16)),
            <- (hex_value_digit (N_of_ascii d mod 16)).
    - now rewrite Hlo.
    - apply N.mod_lt. lia.
    - apply N.mod_lt. lia. }
  rewrite <- (ascii_N_embedding c), <- (ascii_N_embedding d). f_equal.
  rewrite (N.div_mod (N_of_ascii c) 16), (N.div_mod (N_of_ascii d) 16) by lia.
  now rewrite Hq, Hr.
Qed.

(** X1. A dump takes two characters for each character of the text and
    one space between neighbours: [3 * n - 1] characters for a text of
    [n >= 1] characters, none for the empty text. *)
Theorem hexformat_length (text : string) :
  String.length (hexformat text) = (3 * String.length text - 1)%nat.
Proof.
  induction text as [|c s IH]; [reflexivity|].
  rewrite hexformat_cons. destruct s as [|d s]; [reflexivity|].
  unfold hex02X. cbn [append String.length]. rewrite IH.
  cbn [String.length]. lia.
Qed.

(** X2. The dump determines the text: two texts with the same dump are
    the same text, control characters included. *)
Theorem hexformat_injective (a b : string) :
  hexformat a = hexformat b -> a = b.
Proof.
  revert b. induction a as [|c a IH]; intros b H.
  - destruct b as [|d b]; [reflexivity|].
    rewrite hexformat_cons in H. destruct b; discriminate H.
  - destruct b as [|d b].
    + rewrite hexformat_cons in H. destruct a; discriminate H.
    + rewrite !hexformat_cons in H.
      assert (Hhead : hex02X c = hex02X d /\
                      (a = "" /\ b = "" \/
                       a <> "" /\ b <> "" /\ hexformat a = hexformat b)).
      { destruct a as [|a1 a]; destruct b as [|b1 b].
        - split; [exact H | left; now split].
        - unfold hex02X in H. cbn [append] in H. discriminate H.
        - unfold hex02X in H. cbn [append] in H. discriminate H.
        - unfold hex02X in H |- *. cbn [append] in H.
          injection H as H1 H2 H3. split; [now rewrite H1, H2|].
          right. repeat split; try discriminate. exact H3. }
      destruct Hhead as [Hc Hrest]. apply hex02X_inj in Hc. subst d.
      f_equal. destruct Hrest as [[-> ->] | (_ & _ & Hrest)];
        [reflexivity | now apply IH].
Qed.

Lemma hexformat_injective_witness : "???" = "???".
Proof.
  exact (hexformat_injective "???" "???" eq_refl).
Defined.

(** ** query: a starved handshake, and what a call leaves behind *)

(** An acknowledgement with nothing behind it: the ENQ goes out and the
    second read times out. *)
Lemma query_ack_starved (argin ans : string) (tx : list string)
    (lg : list log_entry) :
  str_in ACK ans = true ->
  query argin (mkDevice [ans] tx lg) =
  (Raise VisaIOError,
   mkDevice [] (tx ++ [argin ++ write_termination; ENQ])
     (lg ++ [ Debug ("query: " ++ argin);
              Debug ("reply: " ++ ans ++ " (" ++ hexformat ans ++ ")");
              Debug "Received ACK, proceeding with ENQ" ])).
Proof.
  intros Hack. unfold query, bind, inst_query, inst_write, inst_write_raw,
    inst_read, debug_stream, ret. simpl. rewrite Hack. simpl.
  repeat rewrite <- app_assoc. reflexivity.
Qed.







(** X4. What a call of [query] leaves behind: it takes at most two lines
    from the front of what the instrument had to say, the wire gains the
    command line and at most one ENQ after it, and the log gains entries
    that begin with the [query:] line; nothing older is changed. *)
Theorem query_frame (argin : string) (self : Device) :
  let after := snd (query argin self) in
  exists (taken : nat) (tail : list string) (entries : list log_entry),
    (taken <= 2)%nat /\
    inst_rx after = drop taken (inst_rx self) /\
    (tail = [] \/ tail = [ENQ]) /\
    inst_tx after =
      (inst_tx self ++ (argin ++ write_termination)%string :: tail)%list /\
    streams after =
      (streams self ++ Debug ("query: " ++ argin) :: entries)%list.
Proof.
  destruct self as [rx tx lg]. cbn [inst_rx inst_tx streams].
  destruct rx as [|ans rx].
  - rewrite query_timeout. exists 0%nat, [], []. cbn. auto 6.
  - destruct (str_in ACK ans) eqn:Hack.
    + destruct rx as [|reply rx].
      * rewrite query_ack_starved by assumption.
        exists 1%nat, [ENQ]. eexists. cbn. auto 6.
      * rewrite query_on_ack by assumption.
        exists 2%nat, [ENQ]. eexists. unfold ack_log. cbn. auto 6.
    + rewrite query_without_ack by assumption.
      exists 1%nat, []. eexists. unfold nack_log. cbn. auto 6.
Qed.

(** ** Strings: appending *)

Lemma length_append (x t : string) :
  String.length (x ++ t) = (String.length x + String.length t)%nat.
Proof. induction x as [|c x IH]; simpl; [reflexivity | now rewrite IH]. Qed.

Lemma append_cancel_r (t x y : string) : x ++ t = y ++ t -> x = y.
Proof.
  intros H.
  assert (Hlen : String.length x = String.length y).
  { apply (f_equal String.length) in H. rewrite !length_append in H. lia. }
  revert y H Hlen. induction x as [|c x IH]; intros [|d y] H Hlen;
    simpl in Hlen; try discriminate Hlen; [reflexivity|].
  simpl in H. injection H as -> H. f_equal. apply IH; [exact H | lia].
Qed.

(** ** str: the decimal rendering of an int *)



Lemma str_inj (a b : Z) : str a = str b -> a = b.
Proof.
  unfold str. intros H. apply DecimalZ.to_int_inj.
  assert (Hok : forall n, Z.to_int n <> Decimal.Pos Decimal.Nil /\
                          Z.to_int n <> Decimal.Neg Decimal.Nil).
  { intros [|p|p]; simpl; split; try discriminate; intros E;
      injection E as E; exact (DecimalPos.Unsigned.to_uint_nonnil p E). }
  destruct (Hok a) as [Ha1 Ha2]. destruct (Hok b) as [Hb1 Hb2].
  pose proof (NilZero.isi (Z.to_int a) Ha1 Ha2) as Ia.
  pose proof (NilZero.isi (Z.to_int b) Hb1 Hb2) as Ib.
  rewrite H in Ia. congruence.
Qed.

(** ** read_sensor: when it raises, and what it sends *)

Lemma first_sent_middle (before tail : list string) (x : string)
    (after : Device) :
  inst_tx after = (before ++ x :: tail)%list ->
  first_sent before after = Some x.
Proof.
  unfold first_sent. intros ->. now apply list_lookup_middle.
Qed.

Lemma read_sensor_state (argin : Z) (self : Device) :
  snd (read_sensor argin self) = snd (query ("PR" ++ str argin) self).
Proof.
  rewrite read_sensor_unfold.
  now destruct (query ("PR" ++ str argin) self) as [[ans|e] s1].
Qed.

Lemma read_sensor_first_sent (argin : Z) (self : Device) :
  first_sent (inst_tx self) (snd (read_sensor argin self)) =
  Some ("PR" ++ str argin ++ write_termination).
Proof.
  rewrite read_sensor_state.
  destruct (query_tx ("PR" ++ str argin) self) as (tail & _ & Htx).
  now apply (first_sent_middle _ tail).
Qed.


(** X6. [read_sensor] checks no channel range: for every integer it
    first sends [PR] followed by the number in decimal and the write
    terminator, and different numbers give different command lines. *)
Theorem read_sensor_command_per_channel (a b : Z) (self : Device) :
  first_sent (inst_tx self) (snd (read_sensor a self)) =
    Some ("PR" ++ str a ++ write_termination) /\
  (first_sent (inst_tx self) (snd (read_sensor a self)) =
   first_sent (inst_tx self) (snd (read_sensor b self)) -> a = b).
Proof.
  split; [apply read_sensor_first_sent|].
  rewrite !read_sensor_first_sent. intros H. injection H as H.
  apply str_inj. now apply (append_cancel_r write_termination).
Qed.

(** ** The SEN command: aliases, refusals, decoding *)

Lemma slot_of_alias (channel : Z) :
  1 <= channel <= 6 -> slot_of (channel - 6) = slot_of channel.
Proof.
  intros Hrange. unfold slot_of. decide_comparisons; lia.
Qed.


(** X7. A channel number in -5..0 is an alias: for [c] in 1..6, calling
    either command with [c - 6] does exactly what calling it with [c]
    does. *)
Theorem channel_alias (channel : Z) (enabled : bool) (self : Device) :
  1 <= channel <= 6 ->
  setChannelEnabled (channel - 6) enabled self =
  setChannelEnabled channel enabled self.
Proof.
  intros Hrange. rewrite !set_channel_issues_query by lia.
  now rewrite slot_of_alias.
Qed.

Lemma channel_alias_witness :
  disable_sensor (-3) obliging_device = disable_sensor 3 obliging_device.
Proof.
  apply (channel_alias 3 false obliging_device). lia.
Defined.

(** X8. A refusal is not reported to the caller: when the first reply
    to a SEN command holds no ACK, either command still returns normally;
    the refusal shows in the log alone. *)
Theorem set_channel_refusal_unreported
    (channel : Z) (enabled : bool) (ans : string) (rest : list string)
    (self : Device) :
  -5 <= channel <= 6 ->
  inst_rx self = ans :: rest ->
  ~ has_byte ack_byte ans ->
  let command := sen_command (one_hot (slot_of channel) (action enabled)) in
  setChannelEnabled channel enabled self =
  (Ok tt,
   mkDevice rest (inst_tx self ++ [command ++ write_termination])
            (streams self ++ nack_log command ans)).
Proof.
  intros Hrange Hrx Hack command. subst command.
  rewrite set_channel_issues_query by assumption.
  destruct self as [rx tx lg]. simpl in Hrx. subst rx.
  unfold bind, ret. rewrite query_without_ack by now apply str_in_byte_false.
  reflexivity.
Qed.

Lemma set_channel_refusal_unreported_witness :
  enable_sensor 1 (mkDevice [NAK] [] []) =
  (Ok tt,
   mkDevice [] ["SEN,2,0,0,0,0,0" ++ write_termination]
     [ Debug "query: SEN,2,0,0,0,0,0"; Debug ("reply: " ++ NAK ++ " (15)");
       Error "Query resulted in NAK: SEN,2,0,0,0,0,0" ]).
Proof.
  apply (set_channel_refusal_unreported 1 true NAK [] (mkDevice [NAK] [] [])).
  - lia.
  - reflexivity.
  - unfold has_byte. simpl. intros [E|[]]. discriminate E.
Defined.



